(** * static/script.js: the report form's submit and copy handlers

    The page script binds two listeners: the submit handler of the report
    form (lines 11-66) and the click handler of the copy button (lines
    69-81).  Both are embedded here as programs of a small monad that
    threads the page and its host (network, console, clipboard, timers),
    carries JavaScript exceptions, and records a snapshot of the world
    after every statement that changes it and at every point where the
    handler hands control back to the event loop. *)

From Stdlib Require Import String Ascii List NArith ZArith Bool Lia DecimalString.
Import ListNotations.
Local Open Scope string_scope.

(** ** JavaScript values *)

(** What the script leaves to the JavaScript engine: the number type with
    its truthiness and its string conversion, and the wording of the two
    TypeErrors the handler can run into (reading a property of [null];
    converting an object without a usable [toString] to a string). *)
Class Engine : Type := {
  number : Type;
  number_truthy : number -> bool;
  number_to_string : number -> string;
  null_read_message : string -> string -> string;
  to_primitive_message : string
}.

(** An exception object, as far as the script looks at it. *)
Record Error : Type := { name : string; message : string }.

(** Completion of an evaluation: a value, or a thrown exception. *)
Inductive Result (A : Type) : Type :=
| Ok (a : A)
| Throw (e : Error).
Arguments Ok {A} a.
Arguments Throw {A} e.

(** How a promise settles. *)
Inductive Settled (A : Type) : Type :=
| Fulfilled (a : A)
| Rejected (e : Error).
Arguments Fulfilled {A} a.
Arguments Rejected {A} e.

(** The double quote character. *)
Definition dq : ascii := "034"%char.

Section Values.
Context {engine : Engine}.

(** A value produced by [JSON.parse]. An object is the list of its members
    in the order of the text; [undefined] is [None] of [option json]. *)
#[warnings="-register-all"]
Inductive json : Type :=
| JNull
| JBool (b : bool)
| JNum (n : number)
| JStr (s : string)
| JArr (items : list json)
| JObj (members : list (string * json)).

(** [JSON.parse] keeps the last of several members with the same key. *)
Fixpoint member (k : string) (ms : list (string * json)) : option json :=
  match ms with
  | [] => None
  | (k', v) :: rest =>
      match member k rest with
      | Some later => Some later
      | None => if String.eqb k k' then Some v else None
      end
  end.

(** [v.k] for a value [v] other than [null] and a name [k] that no built-in
    prototype defines ([report] and [error] are such names): the own
    property of an object, [undefined] on everything else. *)
Definition own_property (v : json) (k : string) : option json :=
  match v with
  | JObj ms => member k ms
  | _ => None
  end.

Definition TypeError (msg : string) : Error :=
  {| name := "TypeError"; message := msg |}.

(** The property read [expr.k], where [expr] is the source text of the
    receiver: reading a property of [null] throws a TypeError. *)
Definition read_property (expr : string) (v : json) (k : string)
  : Result (option json) :=
  match v with
  | JNull => Throw (TypeError (null_read_message expr k))
  | _ => Ok (own_property v k)
  end.

(** ToBoolean. *)
Definition ToBoolean (v : json) : bool :=
  match v with
  | JNull => false
  | JBool b => b
  | JNum n => number_truthy n
  | JStr s => negb (String.eqb s EmptyString)
  | JArr _ => true
  | JObj _ => true
  end.

Definition truthy (v : option json) : bool :=
  match v with
  | None => false
  | Some x => ToBoolean x
  end.

(** ToString. An array is joined with commas, a [null] element giving the
    empty string. A parsed object inherits [Object.prototype.toString]
    unless it has an own member [toString], which is never callable: then
    [valueOf] returns no primitive either and the conversion throws. *)
Fixpoint ToString (v : json) : Result string :=
  match v with
  | JNull => Ok "null"
  | JBool true => Ok "true"
  | JBool false => Ok "false"
  | JNum n => Ok (number_to_string n)
  | JStr s => Ok s
  | JArr items =>
      (fix join (l : list json) : Result string :=
         match l with
         | [] => Ok EmptyString
         | x :: rest =>
             match (match x with JNull => Ok EmptyString | _ => ToString x end) with
             | Throw e => Throw e
             | Ok s =>
                 match rest with
                 | [] => Ok s
                 | _ :: _ =>
                     match join rest with
                     | Ok r => Ok (s ++ "," ++ r)
                     | Throw e => Throw e
                     end
                 end
             end
         end) items
  | JObj ms =>
      match member "toString" ms with
      | Some _ => Throw (TypeError to_primitive_message)
      | None => Ok "[object Object]"
      end
  end.

(** [new Error(x)] for a defined [x]: the message is [ToString x]. *)
Definition new_Error (x : json) : Result Error :=
  match ToString x with
  | Ok s => Ok {| name := "Error"; message := s |}
  | Throw e => Throw e
  end.

(** *** JSON.stringify *)

Definition hex_digit (n : N) : ascii :=
  if (n <? 10)%N then ascii_of_N (48 + n) else ascii_of_N (87 + n).

(** One character of QuoteJSONString. A string stands for the UTF-8 bytes
    of its text, so bytes from 128 on are copied. *)
Definition escape (c : ascii) : string :=
  let n := N_of_ascii c in
  if (n =? 8)%N then "\b"
  else if (n =? 9)%N then "\t"
  else if (n =? 10)%N then "\n"
  else if (n =? 12)%N then "\f"
  else if (n =? 13)%N then "\r"
  else if (n =? 34)%N then String "\" (String dq EmptyString)
  else if (n =? 92)%N then "\\"
  else if (n <? 32)%N then
    "\u00" ++ String (hex_digit (n / 16)) (String (hex_digit (n mod 16)) EmptyString)
  else String c EmptyString.

Fixpoint escape_all (s : string) : string :=
  match s with
  | EmptyString => EmptyString
  | String c rest => escape c ++ escape_all rest
  end.

Definition QuoteJSONString (s : string) : string :=
  String dq (escape_all s ++ String dq EmptyString).

(** [JSON.stringify] without indentation. The members of an object are
    written in the order of the list, which is the engine's property order
    when the keys are distinct and none is an array index, as in the object
    literal of line 31. *)
Fixpoint JSON_stringify (v : json) : string :=
  match v with
  | JNull => "null"
  | JBool true => "true"
  | JBool false => "false"
  | JNum n => number_to_string n
  | JStr s => QuoteJSONString s
  | JArr items =>
      "[" ++ String.concat ","
               ((fix each (l : list json) : list string :=
                   match l with
                   | [] => []
                   | x :: rest => JSON_stringify x :: each rest
                   end) items) ++ "]"
  | JObj ms =>
      "{" ++ String.concat ","
               ((fix each (l : list (string * json)) : list string :=
                   match l with
                   | [] => []
                   | (k, x) :: rest =>
                       (QuoteJSONString k ++ ":" ++ JSON_stringify x) :: each rest
                   end) ms) ++ "}"
  end.

(** *** Reading the request body back

    The receiving side of line 31: a reader for the JSON text of an
    object with the two string members [findings] and [template], in
    that order.  It undoes [QuoteJSONString]; of the [\u] escapes it
    accepts those below 256, which are the ones [escape] writes. *)

Definition hex_value (c : ascii) : option N :=
  let n := N_of_ascii c in
  if ((48 <=? n) && (n <=? 57))%N then Some (n - 48)%N
  else if ((97 <=? n) && (n <=? 102))%N then Some (n - 87)%N
  else if ((65 <=? n) && (n <=? 70))%N then Some (n - 55)%N
  else None.

(** The character that a one-letter escape stands for. *)
Definition unescape (c : ascii) : option ascii :=
  let n := N_of_ascii c in
  if (n =? 98)%N then Some (ascii_of_N 8)
  else if (n =? 116)%N then Some (ascii_of_N 9)
  else if (n =? 110)%N then Some (ascii_of_N 10)
  else if (n =? 102)%N then Some (ascii_of_N 12)
  else if (n =? 114)%N then Some (ascii_of_N 13)
  else if (n =? 34)%N then Some dq
  else if (n =? 92)%N then Some "\"%char
  else if (n =? 47)%N then Some "/"%char
  else None.

Definition prepend (c : ascii) (r : option (string * string))
  : option (string * string) :=
  match r with
  | Some (s, rest) => Some (String c s, rest)
  | None => None
  end.

(** The characters of a string literal after its opening quote, and what
    follows the closing quote. *)
Fixpoint read_characters (s : string) : option (string * string) :=
  match s with
  | EmptyString => None
  | String c rest =>
      if Ascii.eqb c dq then Some (EmptyString, rest)
      else if Ascii.eqb c "\"%char then
        match rest with
        | EmptyString => None
        | String e rest1 =>
            if Ascii.eqb e "u"%char then
              match rest1 with
              | String a (String b (String h (String l rest2))) =>
                  match hex_value a, hex_value b, hex_value h, hex_value l with
                  | Some 0%N, Some 0%N, Some hi, Some lo =>
                      prepend (ascii_of_N (16 * hi + lo)) (read_characters rest2)
                  | _, _, _, _ => None
                  end
              | _ => None
              end
            else
              match unescape e with
              | Some ch => prepend ch (read_characters rest1)
              | None => None
              end
        end
      else if (N_of_ascii c <? 32)%N then None
      else prepend c (read_characters rest)
  end.

Definition read_string (s : string) : option (string * string) :=
  match s with
  | String c rest => if Ascii.eqb c dq then read_characters rest else None
  | EmptyString => None
  end.

(** [expect p s]: what follows the prefix [p] of [s]. *)
Fixpoint expect (p s : string) : option string :=
  match p with
  | EmptyString => Some s
  | String c p' =>
      match s with
      | String c' s' => if Ascii.eqb c c' then expect p' s' else None
      | EmptyString => None
      end
  end.

(** A string member with the given key, then the given separator. *)
Definition read_member (key separator s : string) : option (string * string) :=
  match read_string s with
  | Some (k, s1) =>
      if String.eqb k key then
        match expect ":" s1 with
        | Some s2 =>
            match read_string s2 with
            | Some (v, s3) =>
                match expect separator s3 with
                | Some s4 => Some (v, s4)
                | None => None
                end
            | None => None
            end
        | None => None
        end
      else None
  | None => None
  end.

(** The findings and the template of a request body. *)
Definition read_request_body (s : string) : option (string * string) :=
  match expect "{" s with
  | Some s1 =>
      match read_member "findings" "," s1 with
      | Some (findings, s2) =>
          match read_member "template" "}" s2 with
          | Some (template, EmptyString) => Some (findings, template)
          | _ => None
          end
      | None => None
      end
  | None => None
  end.

End Values.

(** ** The page and its host *)

(** The properties of the page's elements that the script reads or
    writes, named element_property after the script's constants. The
    document itself is not part of the script: it is taken to contain
    every element that the script looks up. *)
Record Dom : Type := {
  resultArea_display : string;
  errorArea_display : string;
  loadingDiv_display : string;
  generateButton_disabled : bool;
  reportOutput_textContent : string;
  errorMessage_textContent : string;
  copyButton_textContent : string;
  findings_value : string;
  template_value : string
}.

Definition set_resultArea_display (v : string) (d : Dom) : Dom :=
  {| resultArea_display := v;
     errorArea_display := errorArea_display d;
     loadingDiv_display := loadingDiv_display d;
     generateButton_disabled := generateButton_disabled d;
     reportOutput_textContent := reportOutput_textContent d;
     errorMessage_textContent := errorMessage_textContent d;
     copyButton_textContent := copyButton_textContent d;
     findings_value := findings_value d;
     template_value := template_value d |}.

Definition set_errorArea_display (v : string) (d : Dom) : Dom :=
  {| resultArea_display := resultArea_display d;
     errorArea_display := v;
     loadingDiv_display := loadingDiv_display d;
     generateButton_disabled := generateButton_disabled d;
     reportOutput_textContent := reportOutput_textContent d;
     errorMessage_textContent := errorMessage_textContent d;
     copyButton_textContent := copyButton_textContent d;
     findings_value := findings_value d;
     template_value := template_value d |}.

Definition set_loadingDiv_display (v : string) (d : Dom) : Dom :=
  {| resultArea_display := resultArea_display d;
     errorArea_display := errorArea_display d;
     loadingDiv_display := v;
     generateButton_disabled := generateButton_disabled d;
     reportOutput_textContent := reportOutput_textContent d;
     errorMessage_textContent := errorMessage_textContent d;
     copyButton_textContent := copyButton_textContent d;
     findings_value := findings_value d;
     template_value := template_value d |}.

Definition set_generateButton_disabled (v : bool) (d : Dom) : Dom :=
  {| resultArea_display := resultArea_display d;
     errorArea_display := errorArea_display d;
     loadingDiv_display := loadingDiv_display d;
     generateButton_disabled := v;
     reportOutput_textContent := reportOutput_textContent d;
     errorMessage_textContent := errorMessage_textContent d;
     copyButton_textContent := copyButton_textContent d;
     findings_value := findings_value d;
     template_value := template_value d |}.

Definition set_reportOutput_textContent (v : string) (d : Dom) : Dom :=
  {| resultArea_display := resultArea_display d;
     errorArea_display := errorArea_display d;
     loadingDiv_display := loadingDiv_display d;
     generateButton_disabled := generateButton_disabled d;
     reportOutput_textContent := v;
     errorMessage_textContent := errorMessage_textContent d;
     copyButton_textContent := copyButton_textContent d;
     findings_value := findings_value d;
     template_value := template_value d |}.

Definition set_errorMessage_textContent (v : string) (d : Dom) : Dom :=
  {| resultArea_display := resultArea_display d;
     errorArea_display := errorArea_display d;
     loadingDiv_display := loadingDiv_display d;
     generateButton_disabled := generateButton_disabled d;
     reportOutput_textContent := reportOutput_textContent d;
     errorMessage_textContent := v;
     copyButton_textContent := copyButton_textContent d;
     findings_value := findings_value d;
     template_value := template_value d |}.

Definition set_copyButton_textContent (v : string) (d : Dom) : Dom :=
  {| resultArea_display := resultArea_display d;
     errorArea_display := errorArea_display d;
     loadingDiv_display := loadingDiv_display d;
     generateButton_disabled := generateButton_disabled d;
     reportOutput_textContent := reportOutput_textContent d;
     errorMessage_textContent := errorMessage_textContent d;
     copyButton_textContent := v;
     findings_value := findings_value d;
     template_value := template_value d |}.

(** An element is shown unless its inline [display] is ['none']. *)
Definition visible (display : string) : bool :=
  negb (String.eqb display "none").

(** How many of the three display regions are shown. *)
Definition visible_regions (d : Dom) : nat :=
  (if visible (loadingDiv_display d) then 1 else 0) +
  (if visible (resultArea_display d) then 1 else 0) +
  (if visible (errorArea_display d) then 1 else 0).

(** A request handed to [fetch]. *)
Record Request : Type := {
  url : string;
  method : string;
  headers : list (string * string);
  request_body : string
}.

(** The functions the script passes to [setTimeout]: only the arrow
    function of line 74. *)
Inductive Callback : Type :=
| RestoreCopyLabel.

Record Timer : Type := { due : N; callback : Callback }.

(** What the script reaches outside the page: the submit event's default
    action, the requests sent and whether one is pending, the console, the
    clipboard, the alerts shown, and the timers with the clock. *)
Record Host : Type := {
  default_prevented : bool;
  sent : list Request;
  in_flight : bool;
  console : list (string * Error);
  clipboard : string;
  alerts : list string;
  timers : list Timer;
  clock : N
}.

Record World : Type := { dom : Dom; host : Host }.

Definition on_dom (f : Dom -> Dom) (w : World) : World :=
  {| dom := f (dom w); host := host w |}.

Definition on_host (f : Host -> Host) (w : World) : World :=
  {| dom := dom w; host := f (host w) |}.

(** [event.preventDefault()]. *)
Definition preventDefault (h : Host) : Host :=
  {| default_prevented := true;
     sent := sent h; in_flight := in_flight h; console := console h;
     clipboard := clipboard h; alerts := alerts h;
     timers := timers h; clock := clock h |}.

(** The call of [fetch]: the request leaves and its promise is pending. *)
Definition send (r : Request) (h : Host) : Host :=
  {| default_prevented := default_prevented h;
     sent := sent h ++ [r]; in_flight := true; console := console h;
     clipboard := clipboard h; alerts := alerts h;
     timers := timers h; clock := clock h |}.

(** The promise of [fetch] settles. *)
Definition settle (h : Host) : Host :=
  {| default_prevented := default_prevented h;
     sent := sent h; in_flight := false; console := console h;
     clipboard := clipboard h; alerts := alerts h;
     timers := timers h; clock := clock h |}.

(** [console.error(label, e)]. *)
Definition console_error (label : string) (e : Error) (h : Host) : Host :=
  {| default_prevented := default_prevented h;
     sent := sent h; in_flight := in_flight h;
     console := console h ++ [(label, e)];
     clipboard := clipboard h; alerts := alerts h;
     timers := timers h; clock := clock h |}.

Definition set_clipboard (text : string) (h : Host) : Host :=
  {| default_prevented := default_prevented h;
     sent := sent h; in_flight := in_flight h; console := console h;
     clipboard := text; alerts := alerts h;
     timers := timers h; clock := clock h |}.

(** [alert(text)]. *)
Definition alert (text : string) (h : Host) : Host :=
  {| default_prevented := default_prevented h;
     sent := sent h; in_flight := in_flight h; console := console h;
     clipboard := clipboard h; alerts := alerts h ++ [text];
     timers := timers h; clock := clock h |}.

(** [setTimeout(cb, delay)]. *)
Definition setTimeout (cb : Callback) (delay : N) (h : Host) : Host :=
  {| default_prevented := default_prevented h;
     sent := sent h; in_flight := in_flight h; console := console h;
     clipboard := clipboard h; alerts := alerts h;
     timers := timers h ++ [{| due := (clock h + delay)%N; callback := cb |}];
     clock := clock h |}.

Definition run_callback (cb : Callback) (d : Dom) : Dom :=
  match cb with
  | RestoreCopyLabel => set_copyButton_textContent "Copy Report to Clipboard" d
  end.

Definition is_due (now : N) (t : Timer) : bool := (due t <=? now)%N.

(** Time passes: the timers that have come due run and are dropped. *)
Definition advance (elapsed : N) (w : World) : World :=
  let now := (clock (host w) + elapsed)%N in
  let h := host w in
  {| dom := fold_left (fun d t => run_callback (callback t) d)
              (filter (is_due now) (timers h)) (dom w);
     host := {| default_prevented := default_prevented h;
                sent := sent h; in_flight := in_flight h;
                console := console h; clipboard := clipboard h;
                alerts := alerts h;
                timers := filter (fun t => negb (is_due now t)) (timers h);
                clock := now |} |}.

(** ** The monad of handlers *)

(** Where a snapshot of the world was taken: right after the statement of
    a source line ran, while the handler is suspended on the promise
    awaited at a line (control is with the event loop), right after it
    resumed there, or when the handler has ended. *)
Inductive Mark : Type :=
| After (line : nat)
| Awaiting (line : nat)
| Resumed (line : nat)
| Finished.

Record Snapshot : Type := { mark : Mark; world : World }.

(** A run: the snapshots in the order they were taken, the world at the
    end, and the completion. *)
Record Run (A : Type) : Type := {
  trace : list Snapshot;
  final : World;
  result : Result A
}.
Arguments trace {A} r.
Arguments final {A} r.
Arguments result {A} r.

Definition M (A : Type) : Type := World -> Run A.

Definition ret {A : Type} (a : A) : M A :=
  fun w => {| trace := []; final := w; result := Ok a |}.

Definition throw {A : Type} (e : Error) : M A :=
  fun w => {| trace := []; final := w; result := Throw e |}.

Definition bind {A B : Type} (m : M A) (k : A -> M B) : M B :=
  fun w =>
    let '{| trace := t; final := w1; result := r |} := m w in
    match r with
    | Ok a =>
        let '{| trace := t'; final := w2; result := r' |} := k a w1 in
        {| trace := t ++ t'; final := w2; result := r' |}
    | Throw e => {| trace := t; final := w1; result := Throw e |}
    end.

Declare Scope js_scope.
Delimit Scope js_scope with js.
Notation "x <- m ;; k" := (bind m (fun x => k))
  (at level 61, m at next level, right associativity) : js_scope.
Notation "m ;; k" := (bind m (fun _ => k))
  (at level 61, right associativity) : js_scope.
Local Open Scope js_scope.

(** An evaluation without effect on the world. *)
Definition eval {A : Type} (r : Result A) : M A :=
  fun w => {| trace := []; final := w; result := r |}.

(** Reading from the world. *)
Definition read {A : Type} (f : World -> A) : M A :=
  fun w => {| trace := []; final := w; result := Ok (f w) |}.

(** The statement of a source line that changes the world. *)
Definition stmt (line : nat) (f : World -> World) : M unit :=
  fun w =>
    {| trace := [{| mark := After line; world := f w |}];
       final := f w; result := Ok tt |}.

(** [await p] at a line: the handler is suspended, then resumes with the
    value of [p] or with its rejection thrown. *)
Definition await {A : Type} (line : nat) (p : Settled A) : M A :=
  fun w =>
    {| trace := [{| mark := Awaiting line; world := w |};
                 {| mark := Resumed line; world := w |}];
       final := w;
       result := match p with Fulfilled a => Ok a | Rejected e => Throw e end |}.

(** [try { body } catch (e) { handler }]. *)
Definition try_catch {A : Type} (body : M A) (handler : Error -> M A) : M A :=
  fun w =>
    let '{| trace := t; final := w1; result := r |} := body w in
    match r with
    | Ok a => {| trace := t; final := w1; result := Ok a |}
    | Throw e =>
        let '{| trace := t'; final := w2; result := r' |} := handler e w1 in
        {| trace := t ++ t'; final := w2; result := r' |}
    end.

(** [try { body } finally { finalizer }]: the finalizer runs however the
    body completes; it replaces the completion only by throwing. *)
Definition try_finally {A : Type} (body : M A) (finalizer : M unit) : M A :=
  fun w =>
    let '{| trace := t; final := w1; result := r |} := body w in
    let '{| trace := t'; final := w2; result := r' |} := finalizer w1 in
    {| trace := t ++ t'; final := w2;
       result := match r' with Ok _ => r | Throw e => Throw e end |}.

(** The listener as a whole: a last snapshot when it has ended. *)
Definition listener {A : Type} (body : M A) : M A :=
  fun w =>
    let '{| trace := t; final := w1; result := r |} := body w in
    {| trace := t ++ [{| mark := Finished; world := w1 |}];
       final := w1; result := r |}.

Section Handlers.
Context {engine : Engine}.

(** ** The response *)

(** The response that [fetch] resolves with: its status and how its
    [json()] promise settles (the parsed body, or the parse error). *)
Record Response : Type := { status : N; body : Settled json }.

(** [response.ok]: the status is in the range 200-299. *)
Definition ok (r : Response) : bool :=
  ((200 <=? status r) && (status r <=? 299))%N.

(** The status as the template literal of line 36 prints it. *)
Definition decimal (n : N) : string := NilZero.string_of_uint (N.to_uint n).

(** [a || b] with a string on the right. *)
Definition or_else (a : option json) (b : json) : json :=
  match a with
  | Some v => if ToBoolean v then v else b
  | None => b
  end.

(** [new Error(x)] where [x] may be [undefined] (then the message is
    empty). *)
Definition new_Error_of (x : option json) : Result Error :=
  match x with
  | Some v => new_Error v
  | None => Ok {| name := "Error"; message := EmptyString |}
  end.

(** The conversion of the [textContent] setter: [null] and [undefined]
    give the empty string, everything else goes through ToString. *)
Definition to_textContent (x : option json) : Result string :=
  match x with
  | None => Ok EmptyString
  | Some JNull => Ok EmptyString
  | Some v => ToString v
  end.

(** The call of [fetch] and its [await] (line 26): the request is sent
    and pending while the handler is suspended; then the promise settles
    with [net]. *)
Definition fetch (line : nat) (r : Request) (net : Settled Response) : M Response :=
  fun w =>
    let pending := on_host (send r) w in
    let settled := on_host settle pending in
    {| trace := [{| mark := Awaiting line; world := pending |};
                 {| mark := Resumed line; world := settled |}];
       final := settled;
       result := match net with Fulfilled a => Ok a | Rejected e => Throw e end |}.

(** ** The submit handler, lines 11-66 *)

Definition handleSubmit (net : Settled Response) : M unit :=
  listener (
    stmt 12 (on_host preventDefault) ;;
    stmt 15 (on_dom (set_resultArea_display "none")) ;;
    stmt 16 (on_dom (set_errorArea_display "none")) ;;
    stmt 17 (on_dom (set_loadingDiv_display "block")) ;;
    stmt 18 (on_dom (set_generateButton_disabled true)) ;;
    stmt 19 (on_dom (set_reportOutput_textContent EmptyString)) ;;
    stmt 20 (on_dom (set_errorMessage_textContent EmptyString)) ;;
    findings <- read (fun w => findings_value (dom w)) ;;
    template <- read (fun w => template_value (dom w)) ;;
    try_finally
      (try_catch
         (response <- fetch 26
            {| url := "/generate_report";
               method := "POST";
               headers := [("Content-Type", "application/json")];
               request_body :=
                 JSON_stringify
                   (JObj [("findings", JStr findings);
                          ("template", JStr template)]) |} net ;;
          (if negb (ok response) then
             let errorMsg := JStr ("HTTP error! Status: " ++ decimal (status response)) in
             errorMsg <- try_catch
               (errorData <- await 38 (body response) ;;
                error <- eval (read_property "errorData" errorData "error") ;;
                ret (or_else error errorMsg))
               (fun e => ret errorMsg) ;;
             thrown <- eval (new_Error errorMsg) ;;
             throw thrown
           else ret tt) ;;
          data <- await 46 (body response) ;;
          report <- eval (read_property "data" data "report") ;;
          if truthy report then
            text <- eval (to_textContent report) ;;
            stmt 49 (on_dom (set_reportOutput_textContent text)) ;;
            stmt 50 (on_dom (set_resultArea_display "block"))
          else
            error <- eval (read_property "data" data "error") ;;
            if truthy error then
              thrown <- eval (new_Error_of error) ;;
              throw thrown
            else
              throw {| name := "Error";
                       message := "Received an unexpected response from the server." |})
         (fun error =>
            stmt 58 (on_host (console_error "Error generating report:" error)) ;;
            stmt 59 (on_dom (set_errorMessage_textContent
                               ("Failed to generate report: " ++ message error))) ;;
            stmt 60 (on_dom (set_errorArea_display "block"))))
      (stmt 63 (on_dom (set_loadingDiv_display "none")) ;;
       stmt 64 (on_dom (set_generateButton_disabled false)))).

(** ** The copy handler, lines 69-81 *)

(** [navigator.clipboard.writeText(text)] and the wait for its promise:
    the listener has returned while the write is pending; when the write
    succeeds the clipboard holds the text. *)
Definition writeText (line : nat) (text : string) (write : Settled unit) : M unit :=
  fun w =>
    let written :=
      match write with
      | Fulfilled _ => on_host (set_clipboard text) w
      | Rejected _ => w
      end in
    {| trace := [{| mark := Awaiting line; world := w |};
                 {| mark := Resumed line; world := written |}];
       final := written;
       result := match write with Fulfilled a => Ok a | Rejected e => Throw e end |}.

(** [p.then(f).catch(g)] runs [f] when [p] is fulfilled and [g] when [p]
    is rejected or [f] throws: a try/catch around the wait and [f]. *)
Definition handleCopy (write : Settled unit) : M unit :=
  listener (
    text <- read (fun w => reportOutput_textContent (dom w)) ;;
    try_catch
      (writeText 70 text write ;;
       stmt 73 (on_dom (set_copyButton_textContent "Copied!")) ;;
       stmt 74 (on_host (setTimeout RestoreCopyLabel 2000)))
      (fun err =>
         stmt 77 (on_host (console_error "Failed to copy text: " err)) ;;
         stmt 79 (on_host (alert "Failed to copy report. Please copy manually.")))).

(** ** What else happens on the page

    While the submit handler is suspended other events are served: a
    click on the copy button with its clipboard write settling, or time
    passing and timers running. *)
Inductive Background : Type :=
| CopyClicked (write : Settled unit)
| TimePassed (elapsed : N).

Definition happen (w : World) (b : Background) : World :=
  match b with
  | CopyClicked write => final (handleCopy write w)
  | TimePassed elapsed => advance elapsed w
  end.

Definition meanwhile (bs : list Background) (w : World) : World :=
  fold_left happen bs w.

End Handlers.

(** ** Views and examples *)

(** What the submit handler presents: the three display regions, the
    submit button and the two texts. *)
Record View : Type := {
  loading_shown : bool;
  result_shown : bool;
  error_shown : bool;
  submit_disabled : bool;
  report_text : string;
  error_text : string
}.

Definition view (w : World) : View :=
  {| loading_shown := visible (loadingDiv_display (dom w));
     result_shown := visible (resultArea_display (dom w));
     error_shown := visible (errorArea_display (dom w));
     submit_disabled := generateButton_disabled (dom w);
     report_text := reportOutput_textContent (dom w);
     error_text := errorMessage_textContent (dom w) |}.

(** The marks at which control is with the event loop, so that the page
    can be looked at: the handler is suspended on a promise, or has
    ended. *)
Definition yielded (m : Mark) : bool :=
  match m with
  | Awaiting _ => true
  | Finished => true
  | After _ => false
  | Resumed _ => false
  end.

(** The marks right after line 50 or line 60 has shown the result or the
    error region. *)
Definition just_shown (m : Mark) : bool :=
  match m with
  | After 50 => true
  | After 60 => true
  | _ => false
  end.

(** The marks at which the handler is suspended on a promise. *)
Definition suspended (m : Mark) : bool :=
  match m with
  | Awaiting _ => true
  | _ => false
  end.

(** What the submit handler has no statement for: the label of the copy
    button, the two input fields, the clipboard, the alerts, the timers
    and the clock. *)
Definition beside_submit (w : World)
  : string * string * string * string * list string * list Timer * N :=
  (copyButton_textContent (dom w), findings_value (dom w),
   template_value (dom w), clipboard (host w), alerts (host w),
   timers (host w), clock (host w)).


(** An engine for the examples: V8's wording of the TypeErrors, and the
    integers for numbers (no example contains a number). *)
Definition reference_engine : Engine :=
  {| number := Z;
     number_truthy := fun z => negb (Z.eqb z 0);
     number_to_string := fun z => NilZero.string_of_int (Z.to_int z);
     null_read_message := fun _ k =>
       "Cannot read properties of null (reading '" ++ k ++ "')";
     to_primitive_message := "Cannot convert object to primitive value" |}.

(** A page for the examples, before any submission: nothing shown, the
    two fields filled in. *)
Definition example_page : World :=
  {| dom := {| resultArea_display := "none";
               errorArea_display := "none";
               loadingDiv_display := "none";
               generateButton_disabled := false;
               reportOutput_textContent := EmptyString;
               errorMessage_textContent := EmptyString;
               copyButton_textContent := "Copy Report to Clipboard";
               findings_value := "no acute findings";
               template_value := "chest" |};
     host := {| default_prevented := false;
                sent := [];
                in_flight := false;
                console := [];
                clipboard := EmptyString;
                alerts := [];
                timers := [];
                clock := 0 |} |}.

(** ** Tactics: running a handler symbolically *)

Ltac unfold_run :=
  cbv beta iota zeta delta
    [handleSubmit handleCopy listener bind try_finally try_catch stmt read
     fetch writeText await eval ret throw trace final result body status
     negb].

Ltac split_on t := let E := fresh "E" in destruct t eqn:E.

(** One case distinction on whatever blocks the run. *)
Ltac crack :=
  match goal with
  | |- context [match ?x with Fulfilled _ => _ | Rejected _ => _ end] =>
      is_var x; destruct x
  | |- context [match ?x with Build_Response _ _ => _ end] =>
      is_var x; destruct x
  | |- context [ok ?r] => split_on (ok r)
  | |- context [read_property ?e ?v ?k] => split_on (read_property e v k)
  | |- context [truthy ?v] => split_on (truthy v)
  | |- context [new_Error ?v] => split_on (new_Error v)
  | |- context [new_Error_of ?v] => split_on (new_Error_of v)
  | |- context [to_textContent ?v] => split_on (to_textContent v)
  end; unfold_run.

Ltac all_paths := unfold_run; repeat crack.

(** The run of the submit handler on a response whose body is the JSON
    value [data]. *)
Ltac on_json resp Hbody :=
  let st := fresh "st" in
  let bd := fresh "bd" in
  destruct resp as [st bd]; cbn [status body] in *; subst bd; unfold_run.

(** Closing the side facts of a concrete run. *)
Ltac facts :=
  repeat split; first [assumption | reflexivity | discriminate | (cbn; lia)].

(** ** Properties of the submit handler *)

Section Properties.
Context {engine : Engine}.

(** *** Values *)

Lemma ok_2xx (r : Response) :
  (200 <= status r <= 299)%N -> ok r = true.
Proof.
  intros [Hlo Hhi]. unfold ok.
  apply andb_true_intro; split; apply N.leb_le; assumption.
Qed.

Lemma ok_not_2xx (r : Response) :
  ~ (200 <= status r <= 299)%N -> ok r = false.
Proof.
  intros Hout. unfold ok.
  destruct (N.leb_spec 200 (status r)) as [Hlo | Hlo];
    destruct (N.leb_spec (status r) 299) as [Hhi | Hhi];
    try reflexivity.
  exfalso; apply Hout; split; assumption.
Qed.

Lemma own_property_object (v : json) (k : string) (x : json) :
  own_property v k = Some x -> exists ms, v = JObj ms.
Proof.
  destruct v; simpl; try discriminate. intros _. eexists; reflexivity.
Qed.

Lemma read_property_defined (expr : string) (v : json) (k : string) :
  v <> JNull -> read_property expr v k = Ok (own_property v k).
Proof.
  destruct v; intros Hv; try reflexivity. contradiction.
Qed.

Lemma truthy_string (s : string) :
  s <> EmptyString -> truthy (Some (JStr s)) = true.
Proof.
  intros Hs. simpl. apply negb_true_iff, String.eqb_neq, Hs.
Qed.

Lemma truthy_absent : truthy None = false.
Proof. reflexivity. Qed.

Lemma or_else_truthy (a : option json) (x b : json) :
  a = Some x -> ToBoolean x = true -> or_else a b = x.
Proof. intros -> Hx. simpl. rewrite Hx. reflexivity. Qed.

Lemma or_else_falsy (a : option json) (b : json) :
  truthy a = false -> or_else a b = b.
Proof.
  destruct a as [x |]; simpl; intros Hx; [rewrite Hx |]; reflexivity.
Qed.

(** *** The request body *)

Lemma append_assoc (a b c : string) : (a ++ b) ++ c = a ++ b ++ c.
Proof.
  induction a as [| ch a IH]; simpl; [reflexivity | rewrite IH; reflexivity].
Qed.

Lemma read_escape (c : ascii) (t : string) :
  read_characters (escape c ++ t) = prepend c (read_characters t).
Proof.
  destruct c as [[] [] [] [] [] [] [] []]; reflexivity.
Qed.

Lemma read_characters_escape_all (s rest : string) :
  read_characters (escape_all s ++ String dq rest) = Some (s, rest).
Proof.
  induction s as [| c s IH]; [reflexivity |].
  cbn [escape_all]. rewrite append_assoc, read_escape, IH. reflexivity.
Qed.

Lemma read_string_quote (s rest : string) :
  read_string (QuoteJSONString s ++ rest) = Some (s, rest).
Proof.
  unfold QuoteJSONString. cbn [append read_string].
  replace (Ascii.eqb dq dq) with true by reflexivity.
  rewrite append_assoc. apply read_characters_escape_all.
Qed.

Lemma expect_prefix (p s : string) : expect p (p ++ s) = Some s.
Proof.
  induction p as [| c p IH]; [reflexivity |].
  cbn [append expect]. rewrite Ascii.eqb_refl. exact IH.
Qed.

Lemma read_member_written (key value separator rest : string) :
  read_member key separator
    (QuoteJSONString key ++ ":" ++ QuoteJSONString value ++ separator ++ rest) =
  Some (value, rest).
Proof.
  unfold read_member.
  rewrite read_string_quote, String.eqb_refl, expect_prefix.
  rewrite read_string_quote, expect_prefix. reflexivity.
Qed.

Lemma request_body_text (findings template : string) :
  JSON_stringify (JObj [("findings", JStr findings); ("template", JStr template)]) =
  "{" ++ QuoteJSONString "findings" ++ ":" ++ QuoteJSONString findings ++
  "," ++ QuoteJSONString "template" ++ ":" ++ QuoteJSONString template ++ "}".
Proof.
  cbn [JSON_stringify String.concat]. rewrite !append_assoc. reflexivity.
Qed.

Lemma request_body_read (findings template : string) :
  read_request_body
    (JSON_stringify (JObj [("findings", JStr findings); ("template", JStr template)])) =
  Some (findings, template).
Proof.
  rewrite request_body_text. unfold read_request_body.
  rewrite expect_prefix, read_member_written.
  replace "}" with ("}" ++ EmptyString) by reflexivity.
  rewrite read_member_written. reflexivity.
Qed.

(** *** The branches of the submit handler *)

(** claim C1, amended: when fetch resolves with a 2xx status and a JSON
    body whose [report] member is a non-empty string, the handler ends
    normally with that string, unchanged, as the text of the report
    output, the result region shown and the error region hidden; the
    error region is hidden in every snapshot from line 16 on. *)
Theorem C1_report_shown (resp : Response) (data : json) (report : string) (w : World) :
  (200 <= status resp <= 299)%N ->
  body resp = Fulfilled data ->
  own_property data "report" = Some (JStr report) ->
  report <> EmptyString ->
  let r := handleSubmit (Fulfilled resp) w in
  result r = Ok tt /\
  reportOutput_textContent (dom (final r)) = report /\
  resultArea_display (dom (final r)) = "block" /\
  errorArea_display (dom (final r)) = "none" /\
  errorMessage_textContent (dom (final r)) = EmptyString /\
  Forall (fun s => mark s <> After 12 -> mark s <> After 15 ->
                   errorArea_display (dom (world s)) = "none") (trace r).
Proof.
  intros Hst Hbody Hrep Hne r; subst r.
  pose proof (ok_2xx _ Hst) as Hok.
  destruct (own_property_object _ _ _ Hrep) as [ms ->].
  on_json resp Hbody.
  rewrite Hok. unfold_run.
  rewrite !read_property_defined by discriminate. rewrite Hrep.
  rewrite (truthy_string _ Hne). unfold_run.
  cbn [to_textContent ToString]. unfold_run.
  repeat split.
  repeat constructor; cbn [mark world]; intros; try reflexivity; congruence.
Qed.

Lemma not_ok_is_failure (resp : Response) (w : World) :
  ok resp = false ->
  let r := handleSubmit (Fulfilled resp) w in
  result r = Ok tt /\
  errorArea_display (dom (final r)) = "block" /\
  resultArea_display (dom (final r)) = "none".
Proof.
  intros Hok r; subst r. destruct resp as [st bd].
  unfold_run. rewrite Hok. all_paths; repeat split.
Qed.

Lemma not_ok_error_member (resp : Response) (data v : json) (text : string) (w : World) :
  ok resp = false ->
  body resp = Fulfilled data ->
  own_property data "error" = Some v ->
  ToBoolean v = true ->
  ToString v = Ok text ->
  errorMessage_textContent (dom (final (handleSubmit (Fulfilled resp) w))) =
  "Failed to generate report: " ++ text.
Proof.
  intros Hok Hbody Herr Htrue Htext.
  destruct (own_property_object _ _ _ Herr) as [ms ->].
  on_json resp Hbody.
  rewrite Hok. unfold_run.
  rewrite read_property_defined by discriminate.
  rewrite (or_else_truthy _ v _ Herr Htrue).
  unfold new_Error. rewrite Htext. reflexivity.
Qed.

Lemma not_ok_status_message (resp : Response) (w : World) :
  ok resp = false ->
  (forall data, body resp = Fulfilled data ->
                truthy (own_property data "error") = false) ->
  errorMessage_textContent (dom (final (handleSubmit (Fulfilled resp) w))) =
  "Failed to generate report: HTTP error! Status: " ++ decimal (status resp).
Proof.
  intros Hok Hfalsy. destruct resp as [st [data | e]]; cbn [status body] in *.
  - specialize (Hfalsy data eq_refl).
    unfold_run. rewrite Hok. unfold_run.
    destruct data;
      try (rewrite read_property_defined by discriminate;
           rewrite (or_else_falsy _ _ Hfalsy));
      reflexivity.
  - unfold_run. rewrite Hok. reflexivity.
Qed.

(** claim C2, amended: when fetch resolves with a status outside 200-299
    the handler ends normally with the error region shown and the result
    region hidden.  If the body parses as JSON to a value with a truthy
    [error] member (for a string: non-empty), the message is the prefix
    followed by that member converted to a string (a string as it is);
    if the body does not parse, or parses to a value whose [error] member
    is absent or falsy, the message is the prefix followed by
    HTTP error! Status: and the decimal status code. *)
Theorem C2_failure_message (resp : Response) (w : World) :
  ~ (200 <= status resp <= 299)%N ->
  let r := handleSubmit (Fulfilled resp) w in
  let shown := errorMessage_textContent (dom (final r)) in
  result r = Ok tt /\
  errorArea_display (dom (final r)) = "block" /\
  resultArea_display (dom (final r)) = "none" /\
  (forall data v text,
     body resp = Fulfilled data ->
     own_property data "error" = Some v ->
     ToBoolean v = true ->
     ToString v = Ok text ->
     shown = "Failed to generate report: " ++ text) /\
  ((forall data, body resp = Fulfilled data ->
                 truthy (own_property data "error") = false) ->
   shown = "Failed to generate report: HTTP error! Status: " ++ decimal (status resp)).
Proof.
  intros Hst r shown; subst r shown.
  pose proof (ok_not_2xx _ Hst) as Hok.
  destruct (not_ok_is_failure resp w Hok) as (Hres & Herr & Hhid).
  repeat split; try assumption.
  - intros data v text. apply not_ok_error_member; assumption.
  - apply not_ok_status_message; assumption.
Qed.

(** claim C5, amended: when fetch resolves with a 2xx status and a JSON
    body that has no [report] member and whose [error] member is a
    non-empty string, the handler ends normally with the error region
    shown, its message the prefix followed by that string unchanged, and
    the result region hidden and empty. *)
Theorem C5_error_shown (resp : Response) (data : json) (e : string) (w : World) :
  (200 <= status resp <= 299)%N ->
  body resp = Fulfilled data ->
  own_property data "report" = None ->
  own_property data "error" = Some (JStr e) ->
  e <> EmptyString ->
  let r := handleSubmit (Fulfilled resp) w in
  result r = Ok tt /\
  errorArea_display (dom (final r)) = "block" /\
  errorMessage_textContent (dom (final r)) = "Failed to generate report: " ++ e /\
  resultArea_display (dom (final r)) = "none" /\
  reportOutput_textContent (dom (final r)) = EmptyString.
Proof.
  intros Hst Hbody Hrep Herr Hne r; subst r.
  pose proof (ok_2xx _ Hst) as Hok.
  destruct (own_property_object _ _ _ Herr) as [ms ->].
  on_json resp Hbody.
  rewrite Hok. unfold_run.
  rewrite !read_property_defined by discriminate. rewrite Hrep, Herr.
  rewrite truthy_absent, (truthy_string _ Hne). unfold_run.
  repeat split.
Qed.

(** claim C6, amended: when fetch resolves with a 2xx status and a JSON
    body other than [null] that has neither a [report] nor an [error]
    member, the handler ends normally with the error region shown and
    exactly the message about an unexpected response. *)
Theorem C6_unexpected_response (resp : Response) (data : json) (w : World) :
  (200 <= status resp <= 299)%N ->
  body resp = Fulfilled data ->
  data <> JNull ->
  own_property data "report" = None ->
  own_property data "error" = None ->
  let r := handleSubmit (Fulfilled resp) w in
  result r = Ok tt /\
  errorArea_display (dom (final r)) = "block" /\
  errorMessage_textContent (dom (final r)) =
    "Failed to generate report: Received an unexpected response from the server." /\
  resultArea_display (dom (final r)) = "none".
Proof.
  intros Hst Hbody Hnull Hrep Herr r; subst r.
  pose proof (ok_2xx _ Hst) as Hok.
  on_json resp Hbody.
  rewrite Hok. unfold_run.
  rewrite !read_property_defined by assumption. rewrite Hrep, Herr.
  rewrite truthy_absent. unfold_run.
  repeat split.
Qed.

(** claim C10: when fetch resolves with a 2xx status and the body is not
    valid JSON, so that [response.json()] rejects with the parse error
    [e], the handler still ends normally: the catch of line 57 shows the
    error region with the prefix followed by the message of [e], and the
    finalization hides the loading indicator and enables the button. *)
Theorem C10_parse_error_caught (resp : Response) (e : Error) (w : World) :
  (200 <= status resp <= 299)%N ->
  body resp = Rejected e ->
  let r := handleSubmit (Fulfilled resp) w in
  result r = Ok tt /\
  errorArea_display (dom (final r)) = "block" /\
  errorMessage_textContent (dom (final r)) =
    "Failed to generate report: " ++ message e /\
  resultArea_display (dom (final r)) = "none" /\
  loadingDiv_display (dom (final r)) = "none" /\
  generateButton_disabled (dom (final r)) = false /\
  console (host (final r)) =
    (console (host w) ++ [("Error generating report:", e)])%list.
Proof.
  intros Hst Hbody r; subst r.
  pose proof (ok_2xx _ Hst) as Hok.
  on_json resp Hbody.
  rewrite Hok. unfold_run.
  repeat split.
Qed.


(** *** Every path of the submit handler *)

Lemma Forall_by_test {A : Type} (P : A -> Prop) (p : A -> bool) (l : list A) :
  (forall x, p x = true -> P x) -> forallb p l = true -> Forall P l.
Proof.
  intros Hp Hall. apply Forall_forall. intros x Hx.
  apply Hp. apply (proj1 (forallb_forall p l) Hall x Hx).
Qed.

Lemma callbacks_frame (ts : list Timer) (d : Dom) (h h' : Host) :
  view {| dom := fold_left (fun page t => run_callback (callback t) page) ts d;
          host := h |} =
  view {| dom := d; host := h' |}.
Proof.
  revert d. induction ts as [| t ts IH]; intros d; [reflexivity |].
  cbn [fold_left]. rewrite IH. destruct (callback t). reflexivity.
Qed.

Lemma happen_frame (w : World) (b : Background) :
  view (happen w b) = view w /\
  in_flight (host (happen w b)) = in_flight (host w).
Proof.
  destruct w as [page h]. destruct b as [[[] | err] | elapsed].
  - split; reflexivity.
  - split; reflexivity.
  - split; [apply callbacks_frame | reflexivity].
Qed.

(** Copy clicks and the passing of time leave alone what the submit
    handler presents, and the pending request. *)
Lemma meanwhile_frame (bs : list Background) (w : World) :
  view (meanwhile bs w) = view w /\
  in_flight (host (meanwhile bs w)) = in_flight (host w).
Proof.
  unfold meanwhile. revert w.
  induction bs as [| b bs IH]; intros w; [split; reflexivity |].
  cbn [fold_left]. destruct (IH (happen w b)) as [Hview Hfly].
  destruct (happen_frame w b) as [Hview' Hfly'].
  split; congruence.
Qed.

Lemma regions_of_view (w w' : World) :
  view w = view w' -> visible_regions (dom w) = visible_regions (dom w').
Proof.
  intros Hview. unfold visible_regions.
  pose proof (f_equal loading_shown Hview) as Hl.
  pose proof (f_equal result_shown Hview) as Hr.
  pose proof (f_equal error_shown Hview) as He.
  cbn [view loading_shown result_shown error_shown] in Hl, Hr, He.
  rewrite Hl, Hr, He. reflexivity.
Qed.

(** claim C3: whatever fetch settles with, the handler ends normally, in
    a world where the loading indicator is hidden, the submit button is
    enabled and no request is pending.  Its run has a snapshot, taken
    while it is suspended on line 26, in which the request is in flight
    and the button disabled; and when it starts with no request pending,
    in every snapshot in which the request is in flight the button is
    disabled and stays so whatever copy clicks and timers are served
    meanwhile. *)
Theorem C3_finalization (net : Settled Response) (w : World) :
  let r := handleSubmit net w in
  result r = Ok tt /\
  loadingDiv_display (dom (final r)) = "none" /\
  generateButton_disabled (dom (final r)) = false /\
  in_flight (host (final r)) = false /\
  Exists (fun s => mark s = Awaiting 26 /\
                   in_flight (host (world s)) = true /\
                   generateButton_disabled (dom (world s)) = true) (trace r) /\
  (in_flight (host w) = false ->
   Forall (fun s => in_flight (host (world s)) = true ->
                    forall bs,
                      generateButton_disabled (dom (meanwhile bs (world s))) = true)
          (trace r)).
Proof.
  intro r; subst r.
  split; [all_paths; reflexivity |].
  split; [all_paths; reflexivity |].
  split; [all_paths; reflexivity |].
  split; [all_paths; reflexivity |].
  split.
  - all_paths.
    all: do 7 apply Exists_cons_tl; apply Exists_cons_hd; repeat split.
  - intros Hidle.
    apply Forall_impl
      with (P := fun s => in_flight (host (world s)) = true ->
                          generateButton_disabled (dom (world s)) = true).
    + intros s Hs Hfly bs.
      destruct (meanwhile_frame bs (world s)) as [Hview _].
      apply (f_equal submit_disabled) in Hview. cbn [view submit_disabled] in Hview.
      rewrite Hview. exact (Hs Hfly).
    + destruct w as [page [prevented requests pending log clip shown waiting now]].
      cbn [host in_flight] in Hidle; subst pending.
      apply (Forall_by_test _
               (fun s => implb (in_flight (host (world s)))
                               (generateButton_disabled (dom (world s)))));
        [ intros s Htest Hfly; rewrite Hfly in Htest; exact Htest
        | all_paths; vm_compute; reflexivity ].
Qed.

Lemma handleSubmit_final_region (net : Settled Response) (w : World) :
  visible_regions (dom (final (handleSubmit net w))) = 1.
Proof. all_paths; reflexivity. Qed.

Lemma hide_result_regions (d : Dom) :
  visible_regions (set_resultArea_display "none" d) <= visible_regions d.
Proof.
  unfold visible_regions. cbn [set_resultArea_display resultArea_display
    errorArea_display loadingDiv_display].
  replace (visible "none") with false by reflexivity.
  destruct (visible (loadingDiv_display d)), (visible (resultArea_display d)),
    (visible (errorArea_display d)); cbn; lia.
Qed.

Lemma hide_error_regions (d : Dom) :
  visible_regions (set_errorArea_display "none" d) <= visible_regions d.
Proof.
  unfold visible_regions. cbn [set_errorArea_display resultArea_display
    errorArea_display loadingDiv_display].
  replace (visible "none") with false by reflexivity.
  destruct (visible (loadingDiv_display d)), (visible (resultArea_display d)),
    (visible (errorArea_display d)); cbn; lia.
Qed.

(** claim C4, amended: whatever fetch settles with and whatever page the
    handler starts on, in every snapshot at which the handler has handed
    control back (suspended on a promise, or ended) at most one of the
    three regions is shown, also after any copy clicks and timers served
    meanwhile, and at the end exactly one is.  Started on a page with at
    most one region shown, the only snapshots of its run with more than
    one are those right after line 50 or line 60 has shown the result or
    error region, before line 63 hides the loading indicator. *)
Theorem C4_one_region_when_yielded (net : Settled Response) (w : World) :
  let r := handleSubmit net w in
  Forall (fun s => forall bs, visible_regions (dom (meanwhile bs (world s))) <= 1)
         (filter (fun s => yielded (mark s)) (trace r)) /\
  visible_regions (dom (final r)) = 1 /\
  (visible_regions (dom w) <= 1 ->
   Forall (fun s => visible_regions (dom (world s)) <= 1)
          (filter (fun s => negb (just_shown (mark s))) (trace r))).
Proof.
  intro r; subst r.
  split; [| split; [apply handleSubmit_final_region |]].
  - apply Forall_impl with (P := fun s => visible_regions (dom (world s)) <= 1).
    + intros s Hs bs.
      rewrite (regions_of_view _ _ (proj1 (meanwhile_frame bs (world s)))).
      exact Hs.
    + all_paths.
      all: apply (Forall_by_test _
                    (fun s => Nat.leb (visible_regions (dom (world s))) 1));
        [ intros s; apply Nat.leb_le | vm_compute; reflexivity ].
  - intros Hstart. all_paths.
    all: cbn [filter app negb just_shown mark Nat.eqb].
    all: apply Forall_cons; [exact Hstart |].
    all: apply Forall_cons;
      [ exact (Nat.le_trans _ _ _ (hide_result_regions _) Hstart) |].
    all: apply Forall_cons;
      [ exact (Nat.le_trans _ _ _ (hide_error_regions _)
                 (Nat.le_trans _ _ _ (hide_result_regions _) Hstart)) |].
    all: apply (Forall_by_test _
                  (fun s => Nat.leb (visible_regions (dom (world s))) 1));
      [ intros s; apply Nat.leb_le | vm_compute; reflexivity ].
Qed.

(** claim C7: whatever fetch settles with, one run of the handler adds
    exactly one request to those sent: a POST to /generate_report with
    the single header Content-Type: application/json, whose body is the
    JSON text of the object with exactly the members [findings] and
    [template], bound to the values of the two input fields; read back,
    the body gives these two values. *)
Theorem C7_one_request (net : Settled Response) (w : World) :
  let r := handleSubmit net w in
  let findings := findings_value (dom w) in
  let template := template_value (dom w) in
  let text :=
    JSON_stringify (JObj [("findings", JStr findings); ("template", JStr template)]) in
  sent (host (final r)) =
    (sent (host w) ++
     [{| url := "/generate_report";
         method := "POST";
         headers := [("Content-Type", "application/json")];
         request_body := text |}])%list /\
  text =
    "{" ++ QuoteJSONString "findings" ++ ":" ++ QuoteJSONString findings ++
    "," ++ QuoteJSONString "template" ++ ":" ++ QuoteJSONString template ++ "}" /\
  read_request_body text = Some (findings, template).
Proof.
  intros r findings template text; subst r findings template text.
  split; [| split].
  - all_paths; reflexivity.
  - apply request_body_text.
  - apply request_body_read.
Qed.

Lemma handleSubmit_view (net : Settled Response) (w w' : World) :
  view (final (handleSubmit net w)) = view (final (handleSubmit net w')).
Proof. all_paths; reflexivity. Qed.

(** claim C9: after two submissions run one after the other, what the
    page presents (regions, button and both texts) is what the second
    submission alone presents on any page whatever, so nothing of the
    first is left; exactly one region is shown. *)
Theorem C9_latest_only (net1 net2 : Settled Response) (w w' : World) :
  let first := final (handleSubmit net1 w) in
  let second := final (handleSubmit net2 first) in
  view second = view (final (handleSubmit net2 w')) /\
  visible_regions (dom second) = 1.
Proof.
  intros first second; subst second. split.
  - apply handleSubmit_view.
  - apply handleSubmit_final_region.
Qed.


(** *** The copy handler *)

Lemma callbacks_restore_label (ts : list Timer) (d : Dom) :
  copyButton_textContent
    (fold_left (fun page t => run_callback (callback t) page) ts d) =
  match ts with
  | [] => copyButton_textContent d
  | _ :: _ => "Copy Report to Clipboard"
  end.
Proof.
  revert d. induction ts as [| t ts IH]; intros d; [reflexivity |].
  cbn [fold_left]. rewrite IH.
  destruct ts; [destruct (callback t) |]; reflexivity.
Qed.

Lemma copy_restored (w : World) (elapsed : N) :
  (2000 <= elapsed)%N ->
  copyButton_textContent
    (dom (advance elapsed (final (handleCopy (Fulfilled tt) w)))) =
  "Copy Report to Clipboard".
Proof.
  intros Hlate.
  destruct w as [page [prevented requests pending log clip shown waiting now]].
  unfold_run. unfold advance.
  cbn [dom host on_dom on_host setTimeout set_clipboard timers clock].
  rewrite callbacks_restore_label, filter_app.
  cbn [filter]. unfold is_due at 2. cbn [due].
  destruct (N.leb_spec (now + 2000) (now + elapsed)) as [_ | Hlt]; [| lia].
  destruct (filter _ waiting); reflexivity.
Qed.

Lemma copy_kept_until_due (w : World) (elapsed : N) :
  timers (host w) = [] ->
  (elapsed < 2000)%N ->
  copyButton_textContent
    (dom (advance elapsed (final (handleCopy (Fulfilled tt) w)))) = "Copied!".
Proof.
  intros Hnone Hearly.
  destruct w as [page [prevented requests pending log clip shown waiting now]].
  cbn [host timers] in Hnone; subst waiting.
  unfold_run. unfold advance.
  cbn [dom host on_dom on_host setTimeout set_clipboard timers clock app].
  rewrite callbacks_restore_label.
  cbn [filter]. unfold is_due. cbn [due].
  destruct (N.leb_spec (now + 2000) (now + elapsed)) as [Hle | _];
    [lia | reflexivity].
Qed.

(** claim C8: a click on the copy button while the report output holds a
    text.  If the clipboard write succeeds, the clipboard holds that text
    and the label is Copied!; once 2000 time units or more have passed
    the label is Copy Report to Clipboard again, and with no other timer
    pending it is still Copied! at every earlier time.  If the write
    fails with [err], the alert asking to copy manually is shown, [err]
    is logged to the console, and the label, the clipboard and the timers
    are as before. *)
Theorem C8_copy (w : World) :
  (let r := handleCopy (Fulfilled tt) w in
   result r = Ok tt /\
   clipboard (host (final r)) = reportOutput_textContent (dom w) /\
   copyButton_textContent (dom (final r)) = "Copied!" /\
   alerts (host (final r)) = alerts (host w) /\
   (forall elapsed, (2000 <= elapsed)%N ->
      copyButton_textContent (dom (advance elapsed (final r))) =
      "Copy Report to Clipboard") /\
   (timers (host w) = [] ->
    forall elapsed, (elapsed < 2000)%N ->
      copyButton_textContent (dom (advance elapsed (final r))) = "Copied!")) /\
  (forall err,
   let r := handleCopy (Rejected err) w in
   result r = Ok tt /\
   alerts (host (final r)) =
     (alerts (host w) ++ ["Failed to copy report. Please copy manually."])%list /\
   console (host (final r)) =
     (console (host w) ++ [("Failed to copy text: ", err)])%list /\
   copyButton_textContent (dom (final r)) = copyButton_textContent (dom w) /\
   clipboard (host (final r)) = clipboard (host w) /\
   timers (host (final r)) = timers (host w)).
Proof.
  split.
  - intro r; subst r.
    split; [reflexivity |]. split; [reflexivity |]. split; [reflexivity |].
    split; [reflexivity |]. split.
    + intros elapsed. apply copy_restored.
    + intros Hnone elapsed. apply copy_kept_until_due. exact Hnone.
  - intros err r; subst r. repeat split.
Qed.

End Properties.

(** ** Concrete runs *)

Section Examples.
#[local] Existing Instance reference_engine.

(** claim C1 as stated fails: a 2xx response whose JSON body has a
    [report] member that is the empty string is not treated as success;
    the result region stays hidden and the error region is shown. *)
Lemma C1_empty_report_counterexample :
  let data := JObj [("report", JStr EmptyString)] in
  let resp := {| status := 200; body := Fulfilled data |} in
  let r := handleSubmit (Fulfilled resp) example_page in
  (200 <= status resp <= 299)%N /\
  own_property data "report" = Some (JStr EmptyString) /\
  ~ (visible (resultArea_display (dom (final r))) = true /\
     visible (errorArea_display (dom (final r))) = false) /\
  resultArea_display (dom (final r)) = "none" /\
  errorArea_display (dom (final r)) = "block" /\
  errorMessage_textContent (dom (final r)) =
    "Failed to generate report: Received an unexpected response from the server.".
Proof.
  cbv zeta. split; [cbn; lia |]. split; [reflexivity |].
  split; [| repeat split].
  vm_compute. intros [Hshown _]. discriminate Hshown.
Qed.

Lemma C1_report_shown_witness :
  let data := JObj [("report", JStr "Normal study.")] in
  let resp := {| status := 200; body := Fulfilled data |} in
  let r := handleSubmit (Fulfilled resp) example_page in
  ((200 <= status resp <= 299)%N /\
   body resp = Fulfilled data /\
   own_property data "report" = Some (JStr "Normal study.") /\
   "Normal study." <> EmptyString) /\
  reportOutput_textContent (dom (final r)) = "Normal study." /\
  resultArea_display (dom (final r)) = "block" /\
  errorArea_display (dom (final r)) = "none".
Proof.
  intros data resp r.
  assert (Hst : (200 <= status resp <= 299)%N) by (cbn; lia).
  assert (Hne : "Normal study." <> EmptyString) by discriminate.
  destruct (C1_report_shown resp data "Normal study." example_page
              Hst eq_refl eq_refl Hne) as (_ & Htext & Hres & Herr & _).
  facts.
Defined.

(** claim C2 as stated fails: a 400 response whose JSON body has an
    [error] member that is the empty string is reported with the status
    message, not with the member's value. *)
Lemma C2_empty_error_counterexample :
  let data := JObj [("error", JStr EmptyString)] in
  let resp := {| status := 400; body := Fulfilled data |} in
  let r := handleSubmit (Fulfilled resp) example_page in
  ~ (200 <= status resp <= 299)%N /\
  own_property data "error" = Some (JStr EmptyString) /\
  errorMessage_textContent (dom (final r)) <>
    "Failed to generate report: " ++ EmptyString /\
  errorMessage_textContent (dom (final r)) =
    "Failed to generate report: HTTP error! Status: 400".
Proof.
  cbv zeta. split; [cbn; lia |]. split; [reflexivity |].
  split; [vm_compute; discriminate | reflexivity].
Qed.

Lemma C2_failure_message_witness :
  let with_error := {| status := 400; body := Fulfilled (JObj [("error", JStr "Y")]) |} in
  let not_json :=
    {| status := 502;
       body := Rejected {| name := "SyntaxError"; message := "Unexpected token <" |} |} in
  (~ (200 <= status with_error <= 299)%N /\
   errorMessage_textContent
     (dom (final (handleSubmit (Fulfilled with_error) example_page))) =
   "Failed to generate report: Y") /\
  (~ (200 <= status not_json <= 299)%N /\
   errorMessage_textContent
     (dom (final (handleSubmit (Fulfilled not_json) example_page))) =
   "Failed to generate report: HTTP error! Status: 502").
Proof.
  intros with_error not_json.
  assert (H400 : ~ (200 <= status with_error <= 299)%N) by (cbn; lia).
  assert (H502 : ~ (200 <= status not_json <= 299)%N) by (cbn; lia).
  split; split; try assumption.
  - destruct (C2_failure_message with_error example_page H400)
      as (_ & _ & _ & Hmember & _).
    exact (Hmember (JObj [("error", JStr "Y")]) (JStr "Y") "Y"
             eq_refl eq_refl eq_refl eq_refl).
  - destruct (C2_failure_message not_json example_page H502)
      as (_ & _ & _ & _ & Hstatus).
    apply Hstatus. intros data Hbody. discriminate Hbody.
Defined.

Lemma C3_finalization_witness :
  let net := Fulfilled {| status := 200;
                          body := Fulfilled (JObj [("report", JStr "Normal study.")]) |} in
  let r := handleSubmit net example_page in
  in_flight (host example_page) = false /\
  loadingDiv_display (dom (final r)) = "none" /\
  generateButton_disabled (dom (final r)) = false /\
  Forall (fun s => in_flight (host (world s)) = true ->
                   forall bs,
                     generateButton_disabled (dom (meanwhile bs (world s))) = true)
         (trace r).
Proof.
  intros net r.
  destruct (C3_finalization net example_page)
    as (_ & Hload & Hbutton & _ & _ & Hflight).
  split; [reflexivity |]. split; [exact Hload |]. split; [exact Hbutton |].
  exact (Hflight eq_refl).
Defined.

(** claim C4 as stated fails: on a successful run the statement of line
    50 shows the result region while the loading indicator, hidden only
    at line 63, is still shown. *)
Lemma C4_two_regions_counterexample :
  let net := Fulfilled {| status := 200;
                          body := Fulfilled (JObj [("report", JStr "Normal study.")]) |} in
  let r := handleSubmit net example_page in
  exists s,
    In s (trace r) /\
    mark s = After 50 /\
    visible (loadingDiv_display (dom (world s))) = true /\
    visible (resultArea_display (dom (world s))) = true /\
    ~ visible_regions (dom (world s)) <= 1.
Proof.
  cbv zeta.
  eexists. split.
  - vm_compute. do 12 right. left. reflexivity.
  - vm_compute. repeat split. lia.
Qed.

Lemma C4_one_region_when_yielded_witness :
  let net := Fulfilled {| status := 200;
                          body := Fulfilled (JObj [("report", JStr "Normal study.")]) |} in
  let r := handleSubmit net example_page in
  visible_regions (dom example_page) <= 1 /\
  Forall (fun s => visible_regions (dom (world s)) <= 1)
         (filter (fun s => negb (just_shown (mark s))) (trace r)).
Proof.
  intros net r.
  assert (Hstart : visible_regions (dom example_page) <= 1) by (cbn; lia).
  split; [exact Hstart |].
  destruct (C4_one_region_when_yielded net example_page) as (_ & _ & Hrun).
  exact (Hrun Hstart).
Defined.

(** claim C5 as stated fails: a 2xx response whose JSON body has no
    [report] member and an [error] member that is the empty string is
    reported as an unexpected response, not with the member's value. *)
Lemma C5_empty_error_counterexample :
  let data := JObj [("error", JStr EmptyString)] in
  let resp := {| status := 200; body := Fulfilled data |} in
  let r := handleSubmit (Fulfilled resp) example_page in
  (200 <= status resp <= 299)%N /\
  own_property data "report" = None /\
  own_property data "error" = Some (JStr EmptyString) /\
  errorMessage_textContent (dom (final r)) <>
    "Failed to generate report: " ++ EmptyString /\
  errorMessage_textContent (dom (final r)) =
    "Failed to generate report: Received an unexpected response from the server.".
Proof.
  cbv zeta. split; [cbn; lia |]. split; [reflexivity |]. split; [reflexivity |].
  split; [vm_compute; discriminate | reflexivity].
Qed.

Lemma C5_error_shown_witness :
  let data := JObj [("error", JStr "Template not found")] in
  let resp := {| status := 200; body := Fulfilled data |} in
  let r := handleSubmit (Fulfilled resp) example_page in
  ((200 <= status resp <= 299)%N /\
   own_property data "report" = None /\
   own_property data "error" = Some (JStr "Template not found") /\
   "Template not found" <> EmptyString) /\
  errorArea_display (dom (final r)) = "block" /\
  errorMessage_textContent (dom (final r)) =
    "Failed to generate report: Template not found".
Proof.
  intros data resp r.
  assert (Hst : (200 <= status resp <= 299)%N) by (cbn; lia).
  assert (Hne : "Template not found" <> EmptyString) by discriminate.
  destruct (C5_error_shown resp data "Template not found" example_page
              Hst eq_refl eq_refl eq_refl Hne) as (_ & Hshown & Htext & _).
  facts.
Defined.

(** claim C6 as stated fails: the JSON body [null] has neither member,
    yet reading [data.report] throws and the message shown is the
    engine's TypeError message. *)
Lemma C6_null_body_counterexample :
  let data := JNull in
  let resp := {| status := 200; body := Fulfilled data |} in
  let r := handleSubmit (Fulfilled resp) example_page in
  (200 <= status resp <= 299)%N /\
  own_property data "report" = None /\
  own_property data "error" = None /\
  errorMessage_textContent (dom (final r)) <>
    "Failed to generate report: Received an unexpected response from the server." /\
  errorMessage_textContent (dom (final r)) =
    "Failed to generate report: Cannot read properties of null (reading 'report')".
Proof.
  cbv zeta. split; [cbn; lia |]. split; [reflexivity |]. split; [reflexivity |].
  split; [vm_compute; discriminate | reflexivity].
Qed.

Lemma C6_unexpected_response_witness :
  let data := JObj [] in
  let resp := {| status := 200; body := Fulfilled data |} in
  let r := handleSubmit (Fulfilled resp) example_page in
  ((200 <= status resp <= 299)%N /\
   data <> JNull /\
   own_property data "report" = None /\
   own_property data "error" = None) /\
  errorMessage_textContent (dom (final r)) =
    "Failed to generate report: Received an unexpected response from the server.".
Proof.
  intros data resp r.
  assert (Hst : (200 <= status resp <= 299)%N) by (cbn; lia).
  assert (Hnull : data <> JNull) by discriminate.
  destruct (C6_unexpected_response resp data example_page
              Hst eq_refl Hnull eq_refl eq_refl) as (_ & _ & Htext & _).
  facts.
Defined.

Lemma C8_copy_witness :
  let w := on_dom (set_reportOutput_textContent "Normal study.") example_page in
  let r := handleCopy (Fulfilled tt) w in
  clipboard (host (final r)) = "Normal study." /\
  ((2000 <= 2000)%N /\
   copyButton_textContent (dom (advance 2000 (final r))) =
   "Copy Report to Clipboard") /\
  (timers (host w) = [] /\ (1999 < 2000)%N /\
   copyButton_textContent (dom (advance 1999 (final r))) = "Copied!").
Proof.
  intros w r.
  destruct (C8_copy w) as ((_ & Hclip & _ & _ & Hlate & Hearly) & _).
  assert (H2000 : (2000 <= 2000)%N) by lia.
  assert (H1999 : (1999 < 2000)%N) by lia.
  split; [exact Hclip |]. split.
  - split; [exact H2000 | exact (Hlate 2000%N H2000)].
  - split; [reflexivity |]. split; [exact H1999 |].
    exact (Hearly eq_refl 1999%N H1999).
Defined.

Lemma C10_parse_error_caught_witness :
  let e := {| name := "SyntaxError"; message := "Unexpected end of JSON input" |} in
  let resp := {| status := 200; body := Rejected e |} in
  let r := handleSubmit (Fulfilled resp) example_page in
  ((200 <= status resp <= 299)%N /\ body resp = Rejected e) /\
  result r = Ok tt /\
  errorMessage_textContent (dom (final r)) =
    "Failed to generate report: Unexpected end of JSON input" /\
  loadingDiv_display (dom (final r)) = "none" /\
  generateButton_disabled (dom (final r)) = false.
Proof.
  intros e resp r.
  assert (Hst : (200 <= status resp <= 299)%N) by (cbn; lia).
  destruct (C10_parse_error_caught resp e example_page Hst eq_refl)
    as (Hres & _ & Htext & _ & Hload & Hbutton & _).
  facts.
Defined.

End Examples.

(** ** Further properties of the two handlers *)

Section Further.
Context {engine : Engine}.

Lemma to_textContent_truthy (v : json) :
  ToBoolean v = true -> to_textContent (Some v) = ToString v.
Proof. destruct v; intros Hv; try reflexivity. discriminate Hv. Qed.

(** extra X1: when fetch itself rejects (the request never got an
    answer), the handler ends normally with the error region shown, its
    message the prefix followed by the message of the rejection, the
    result region hidden, the loading indicator hidden and the button
    enabled; it never waits for a body. *)
Theorem fetch_rejection_shown (e : Error) (w : World) :
  let r := handleSubmit (Rejected e) w in
  result r = Ok tt /\
  errorArea_display (dom (final r)) = "block" /\
  errorMessage_textContent (dom (final r)) =
    "Failed to generate report: " ++ message e /\
  resultArea_display (dom (final r)) = "none" /\
  reportOutput_textContent (dom (final r)) = EmptyString /\
  loadingDiv_display (dom (final r)) = "none" /\
  generateButton_disabled (dom (final r)) = false /\
  Forall (fun s => mark s <> Awaiting 38 /\ mark s <> Awaiting 46) (trace r).
Proof.
  intro r; subst r. unfold_run.
  repeat split; try reflexivity.
  repeat (apply Forall_cons || apply Forall_nil); cbn [mark]; split; discriminate.
Qed.

(** extra X2: every run of the submit handler ends in one of two ways.
    Either the result region is shown and the error region hidden, the
    error message is empty and nothing was logged; or the error region
    is shown and the result region hidden, the report output is empty,
    and exactly one error was logged with console.error, whose message
    is the one shown after the prefix. *)
Theorem submit_outcome (net : Settled Response) (w : World) :
  let r := handleSubmit net w in
  (resultArea_display (dom (final r)) = "block" /\
   errorArea_display (dom (final r)) = "none" /\
   errorMessage_textContent (dom (final r)) = EmptyString /\
   console (host (final r)) = console (host w))
  \/
  (exists e,
     errorArea_display (dom (final r)) = "block" /\
     resultArea_display (dom (final r)) = "none" /\
     reportOutput_textContent (dom (final r)) = EmptyString /\
     errorMessage_textContent (dom (final r)) =
       "Failed to generate report: " ++ message e /\
     console (host (final r)) =
       (console (host w) ++ [("Error generating report:", e)])%list).
Proof.
  intro r; subst r. all_paths.
  all: first [ left; repeat split; reflexivity
             | right; eexists; repeat split; reflexivity ].
Qed.

Lemma truthy_value (a : option json) (v : json) :
  a = Some v -> ToBoolean v = true -> truthy a = true.
Proof. intros -> Hv. exact Hv. Qed.

(** extra X3: when fetch resolves with a 2xx status and a JSON body whose
    [report] member is truthy and converts to a string, the result
    region is shown with that string (a number, an array or a plain
    object is shown as its string conversion), whatever else the body
    holds: an [error] member beside it is not looked at. *)
Theorem truthy_report_shown (resp : Response) (data v : json) (text : string) (w : World) :
  (200 <= status resp <= 299)%N ->
  body resp = Fulfilled data ->
  own_property data "report" = Some v ->
  ToBoolean v = true ->
  ToString v = Ok text ->
  let r := handleSubmit (Fulfilled resp) w in
  result r = Ok tt /\
  reportOutput_textContent (dom (final r)) = text /\
  resultArea_display (dom (final r)) = "block" /\
  errorArea_display (dom (final r)) = "none" /\
  errorMessage_textContent (dom (final r)) = EmptyString /\
  console (host (final r)) = console (host w).
Proof.
  intros Hst Hbody Hrep Htrue Htext r; subst r.
  pose proof (ok_2xx _ Hst) as Hok.
  destruct (own_property_object _ _ _ Hrep) as [ms ->].
  on_json resp Hbody.
  rewrite Hok. unfold_run.
  rewrite !read_property_defined by discriminate.
  rewrite (truthy_value _ _ Hrep Htrue). unfold_run.
  rewrite Hrep, (to_textContent_truthy _ Htrue), Htext. unfold_run.
  repeat split.
Qed.

(** extra X4: a truthy member whose conversion to a string throws (a
    parsed object with an own [toString] member) is never shown: the
    exception is caught at line 57 and its message shown after the
    prefix, with the result region hidden and the report output empty.
    This holds for the [report] of a 2xx body, for the [error] of a 2xx
    body without truthy [report], and for the [error] of a body with a
    status outside 200-299. *)
Theorem unconvertible_member_fails
  (resp : Response) (data v : json) (e : Error) (w : World) :
  body resp = Fulfilled data ->
  ToBoolean v = true ->
  ToString v = Throw e ->
  let r := handleSubmit (Fulfilled resp) w in
  let failed :=
    result r = Ok tt /\
    errorArea_display (dom (final r)) = "block" /\
    errorMessage_textContent (dom (final r)) =
      "Failed to generate report: " ++ message e /\
    resultArea_display (dom (final r)) = "none" /\
    reportOutput_textContent (dom (final r)) = EmptyString in
  ((200 <= status resp <= 299)%N ->
   own_property data "report" = Some v -> failed) /\
  ((200 <= status resp <= 299)%N ->
   truthy (own_property data "report") = false ->
   own_property data "error" = Some v -> failed) /\
  (~ (200 <= status resp <= 299)%N ->
   own_property data "error" = Some v -> failed).
Proof.
  intros Hbody Htrue Hthrow r failed; subst failed r.
  split; [| split].
  - intros Hst Hrep.
    pose proof (ok_2xx _ Hst) as Hok.
    destruct (own_property_object _ _ _ Hrep) as [ms ->].
    on_json resp Hbody.
    rewrite Hok. unfold_run.
    rewrite !read_property_defined by discriminate.
    rewrite (truthy_value _ _ Hrep Htrue). unfold_run.
    rewrite Hrep, (to_textContent_truthy _ Htrue), Hthrow. unfold_run.
    repeat split.
  - intros Hst Hrep Herr.
    pose proof (ok_2xx _ Hst) as Hok.
    destruct (own_property_object _ _ _ Herr) as [ms ->].
    on_json resp Hbody.
    rewrite Hok. unfold_run.
    rewrite !read_property_defined by discriminate.
    rewrite Hrep. unfold_run.
    rewrite (truthy_value _ _ Herr Htrue). unfold_run.
    rewrite Herr. unfold new_Error_of, new_Error. rewrite Hthrow. unfold_run.
    repeat split.
  - intros Hst Herr.
    pose proof (ok_not_2xx _ Hst) as Hok.
    destruct (own_property_object _ _ _ Herr) as [ms ->].
    on_json resp Hbody.
    rewrite Hok. unfold_run.
    rewrite read_property_defined by discriminate.
    rewrite (or_else_truthy _ v _ Herr Htrue).
    unfold new_Error. rewrite Hthrow. unfold_run.
    repeat split.
Qed.

(** extra X5: when fetch resolves with a 2xx status and a JSON body whose
    [report] member is absent or falsy (the empty string, 0, false,
    null) and whose [error] member is truthy and converts to a string,
    the error region shows the prefix followed by that string; a falsy
    [report] does not hide the error. *)
Theorem falsy_report_error_shown
  (resp : Response) (data v : json) (text : string) (w : World) :
  (200 <= status resp <= 299)%N ->
  body resp = Fulfilled data ->
  truthy (own_property data "report") = false ->
  own_property data "error" = Some v ->
  ToBoolean v = true ->
  ToString v = Ok text ->
  let r := handleSubmit (Fulfilled resp) w in
  result r = Ok tt /\
  errorArea_display (dom (final r)) = "block" /\
  errorMessage_textContent (dom (final r)) = "Failed to generate report: " ++ text /\
  resultArea_display (dom (final r)) = "none" /\
  reportOutput_textContent (dom (final r)) = EmptyString.
Proof.
  intros Hst Hbody Hrep Herr Htrue Htext r; subst r.
  pose proof (ok_2xx _ Hst) as Hok.
  destruct (own_property_object _ _ _ Herr) as [ms ->].
  on_json resp Hbody.
  rewrite Hok. unfold_run.
  rewrite !read_property_defined by discriminate.
  rewrite Hrep. unfold_run.
  rewrite (truthy_value _ _ Herr Htrue). unfold_run.
  rewrite Herr. unfold new_Error_of, new_Error. rewrite Htext. unfold_run.
  repeat split.
Qed.

(** extra X6: the submit handler keeps to its own part of the page.  In
    every snapshot of every run the label of the copy button, the values
    of the two input fields, the clipboard, the alerts, the timers and
    the clock are as they were at the start (it never alerts and never
    clears a field), and the native submission is suppressed. *)
Theorem submit_leaves_rest (net : Settled Response) (w : World) :
  let r := handleSubmit net w in
  Forall (fun s => beside_submit (world s) = beside_submit w /\
                   default_prevented (host (world s)) = true) (trace r) /\
  beside_submit (final r) = beside_submit w.
Proof.
  intro r; subst r. all_paths.
  all: split; [| reflexivity].
  all: repeat (apply Forall_cons || apply Forall_nil); split; reflexivity.
Qed.


(** extra X8: whenever the submit handler is suspended (on fetch, or on
    the reading of the body), the page presents the loading indicator
    alone, with the submit button disabled and both texts empty,
    whatever it presented when the handler started: nothing of an
    earlier result or error is on display during the wait. *)
Theorem suspended_shows_loading_only (net : Settled Response) (w : World) :
  let r := handleSubmit net w in
  Forall (fun s => view (world s) =
                   {| loading_shown := true;
                      result_shown := false;
                      error_shown := false;
                      submit_disabled := true;
                      report_text := EmptyString;
                      error_text := EmptyString |})
         (filter (fun s => suspended (mark s)) (trace r)) /\
  Exists (fun s => mark s = Awaiting 26)
         (filter (fun s => suspended (mark s)) (trace r)).
Proof.
  intro r; subst r. all_paths.
  all: cbn [filter app suspended mark].
  all: split;
    [ repeat (apply Forall_cons || apply Forall_nil); reflexivity
    | apply Exists_cons_hd; reflexivity ].
Qed.

(** extra X9: the body of the request determines the two field values:
    two pairs of findings and template with the same body text are the
    same pair, so quotes, backslashes or control characters typed into a
    field cannot make one submission pass for another. *)
Theorem request_body_injective (findings template findings' template' : string) :
  JSON_stringify (JObj [("findings", JStr findings); ("template", JStr template)]) =
  JSON_stringify (JObj [("findings", JStr findings'); ("template", JStr template')]) ->
  findings = findings' /\ template = template'.
Proof.
  intros Hsame.
  pose proof (request_body_read findings template) as Hread.
  rewrite Hsame, request_body_read in Hread.
  injection Hread as Hf Ht. split; symmetry; assumption.
Qed.

(** *** Copying *)

Lemma due_timer_restores (ts : list Timer) (t : Timer) (now : N) (d : Dom) :
  In t ts -> is_due now t = true ->
  copyButton_textContent
    (fold_left (fun page x => run_callback (callback x) page)
               (filter (is_due now) ts) d) =
  "Copy Report to Clipboard".
Proof.
  intros Hin Hdue. rewrite callbacks_restore_label.
  assert (Hkept : In t (filter (is_due now) ts))
    by (apply filter_In; split; assumption).
  destruct (filter (is_due now) ts); [contradiction | reflexivity].
Qed.

(** extra X10: a timer is never cancelled.  After a successful click, a
    wait of less than 2000, a second successful click (label Copied!
    again) and a further wait that brings the total to 2000 or more, the
    label is already restored, by the timer of the first click, however
    short the second wait was. *)
Theorem second_click_cut_short (w : World) (d1 d2 : N) :
  (d1 < 2000)%N ->
  (2000 <= d1 + d2)%N ->
  let first := final (handleCopy (Fulfilled tt) w) in
  let second := final (handleCopy (Fulfilled tt) (advance d1 first)) in
  copyButton_textContent (dom second) = "Copied!" /\
  copyButton_textContent (dom (advance d2 second)) = "Copy Report to Clipboard".
Proof.
  intros Hearly Hlate first second; subst second first.
  destruct w as [page [prevented requests pending log clip shown waiting now]].
  split; [reflexivity |].
  unfold_run. unfold advance.
  cbn [dom host on_dom on_host setTimeout set_clipboard timers clock].
  apply due_timer_restores
    with (t := {| due := (now + 2000)%N; callback := RestoreCopyLabel |}).
  - apply in_or_app. left. apply filter_In. split.
    + apply in_or_app. right. left. reflexivity.
    + unfold is_due. cbn [due]. apply negb_true_iff, N.leb_gt. lia.
  - unfold is_due. cbn [due]. apply N.leb_le. lia.
Qed.

(** extra X11: after a submission that failed, whatever the page showed
    before, a successful click on the copy button puts the empty string
    on the clipboard: the report of an earlier submission can no longer
    be copied. *)
Theorem copy_after_failure (net : Settled Response) (w : World) :
  let submitted := final (handleSubmit net w) in
  let copied := final (handleCopy (Fulfilled tt) submitted) in
  errorArea_display (dom submitted) = "block" ->
  clipboard (host copied) = EmptyString.
Proof.
  intros submitted copied; subst copied submitted. all_paths.
  all: intros Hfailed; try reflexivity; discriminate Hfailed.
Qed.

(** extra X12: after a submission answered with a 2xx status and a
    non-empty [report] string, a successful click on the copy button
    puts exactly that string on the clipboard and leaves it on display. *)
Theorem copy_after_report
  (resp : Response) (data : json) (report : string) (w : World) :
  (200 <= status resp <= 299)%N ->
  body resp = Fulfilled data ->
  own_property data "report" = Some (JStr report) ->
  report <> EmptyString ->
  let submitted := final (handleSubmit (Fulfilled resp) w) in
  let copied := final (handleCopy (Fulfilled tt) submitted) in
  clipboard (host copied) = report /\
  reportOutput_textContent (dom copied) = report /\
  resultArea_display (dom copied) = "block" /\
  copyButton_textContent (dom copied) = "Copied!".
Proof.
  intros Hst Hbody Hrep Hne submitted copied; subst copied submitted.
  pose proof (ok_2xx _ Hst) as Hok.
  destruct (own_property_object _ _ _ Hrep) as [ms ->].
  on_json resp Hbody.
  rewrite Hok. unfold_run.
  rewrite !read_property_defined by discriminate. rewrite Hrep.
  rewrite (truthy_string _ Hne). unfold_run.
  cbn [to_textContent ToString]. unfold_run.
  repeat split.
Qed.

Lemma submit_sends_and_keeps_fields (net : Settled Response) (w : World) :
  let r := handleSubmit net w in
  sent (host (final r)) =
    (sent (host w) ++
     [{| url := "/generate_report";
         method := "POST";
         headers := [("Content-Type", "application/json")];
         request_body :=
           JSON_stringify
             (JObj [("findings", JStr (findings_value (dom w)));
                    ("template", JStr (template_value (dom w)))]) |}])%list /\
  findings_value (dom (final r)) = findings_value (dom w) /\
  template_value (dom (final r)) = template_value (dom w).
Proof. intro r; subst r. all_paths; repeat split. Qed.

(** extra X13: nothing is cached or held back between submissions.  Two
    submissions run one after the other on a page whose fields are not
    edited in between send two requests, in order, with the same body,
    whatever the first was answered with. *)
Theorem resubmission_sends_again (net1 net2 : Settled Response) (w : World) :
  let first := final (handleSubmit net1 w) in
  let second := final (handleSubmit net2 first) in
  let request :=
    {| url := "/generate_report";
       method := "POST";
       headers := [("Content-Type", "application/json")];
       request_body :=
         JSON_stringify
           (JObj [("findings", JStr (findings_value (dom w)));
                  ("template", JStr (template_value (dom w)))]) |} in
  sent (host second) = (sent (host w) ++ [request; request])%list.
Proof.
  intros first second request; subst second first request.
  destruct (submit_sends_and_keeps_fields net1 w) as (Hsent & Hf & Ht).
  destruct (submit_sends_and_keeps_fields net2 (final (handleSubmit net1 w)))
    as (Hsent' & _ & _).
  rewrite Hsent', Hsent, Hf, Ht, <- app_assoc. reflexivity.
Qed.

End Further.

(** ** Further concrete runs *)

Section FurtherExamples.
#[local] Existing Instance reference_engine.

Lemma truthy_report_shown_witness :
  let data := JObj [("report", JArr [JStr "Lungs clear"; JNull; JStr "Heart normal"]);
                    ("error", JStr "ignored")] in
  let resp := {| status := 201; body := Fulfilled data |} in
  let r := handleSubmit (Fulfilled resp) example_page in
  ((200 <= status resp <= 299)%N /\
   ToBoolean (JArr [JStr "Lungs clear"; JNull; JStr "Heart normal"]) = true) /\
  reportOutput_textContent (dom (final r)) = "Lungs clear,,Heart normal" /\
  resultArea_display (dom (final r)) = "block" /\
  errorArea_display (dom (final r)) = "none".
Proof.
  intros data resp r.
  assert (Hst : (200 <= status resp <= 299)%N) by (cbn; lia).
  destruct (truthy_report_shown resp data
              (JArr [JStr "Lungs clear"; JNull; JStr "Heart normal"])
              "Lungs clear,,Heart normal" example_page
              Hst eq_refl eq_refl eq_refl eq_refl)
    as (_ & Htext & Hres & Herr & _).
  facts.
Defined.

Lemma unconvertible_member_fails_witness :
  let v := JObj [("toString", JNum 1%Z)] in
  let e := TypeError "Cannot convert object to primitive value" in
  let as_report := {| status := 200; body := Fulfilled (JObj [("report", v)]) |} in
  let as_error := {| status := 500; body := Fulfilled (JObj [("error", v)]) |} in
  (ToBoolean v = true /\ ToString v = Throw e) /\
  ((200 <= status as_report <= 299)%N /\
   errorMessage_textContent
     (dom (final (handleSubmit (Fulfilled as_report) example_page))) =
   "Failed to generate report: Cannot convert object to primitive value") /\
  (~ (200 <= status as_error <= 299)%N /\
   errorMessage_textContent
     (dom (final (handleSubmit (Fulfilled as_error) example_page))) =
   "Failed to generate report: Cannot convert object to primitive value").
Proof.
  intros v e as_report as_error.
  assert (H200 : (200 <= status as_report <= 299)%N) by (cbn; lia).
  assert (H500 : ~ (200 <= status as_error <= 299)%N) by (cbn; lia).
  split; [split; reflexivity |]. split; split; try assumption.
  - destruct (unconvertible_member_fails as_report (JObj [("report", v)]) v e
                example_page eq_refl eq_refl eq_refl) as (Hreport & _ & _).
    destruct (Hreport H200 eq_refl) as (_ & _ & Htext & _). exact Htext.
  - destruct (unconvertible_member_fails as_error (JObj [("error", v)]) v e
                example_page eq_refl eq_refl eq_refl) as (_ & _ & Herror).
    destruct (Herror H500 eq_refl) as (_ & _ & Htext & _). exact Htext.
Defined.

Lemma falsy_report_error_shown_witness :
  let data := JObj [("report", JStr EmptyString); ("error", JStr "Model unavailable")] in
  let resp := {| status := 200; body := Fulfilled data |} in
  let r := handleSubmit (Fulfilled resp) example_page in
  ((200 <= status resp <= 299)%N /\
   truthy (own_property data "report") = false /\
   own_property data "error" = Some (JStr "Model unavailable")) /\
  errorArea_display (dom (final r)) = "block" /\
  errorMessage_textContent (dom (final r)) =
    "Failed to generate report: Model unavailable".
Proof.
  intros data resp r.
  assert (Hst : (200 <= status resp <= 299)%N) by (cbn; lia).
  destruct (falsy_report_error_shown resp data (JStr "Model unavailable")
              "Model unavailable" example_page
              Hst eq_refl eq_refl eq_refl eq_refl eq_refl)
    as (_ & Hshown & Htext & _).
  facts.
Defined.

Lemma request_body_injective_witness :
  let text :=
    JSON_stringify
      (JObj [("findings", JStr "line one\two"); ("template", JStr "chest")]) in
  text = text /\ "line one\two" = "line one\two" /\ "chest" = "chest".
Proof.
  intros text. split; [reflexivity |].
  exact (request_body_injective "line one\two" "chest" "line one\two" "chest" eq_refl).
Defined.

Lemma second_click_cut_short_witness :
  let first := final (handleCopy (Fulfilled tt) example_page) in
  let second := final (handleCopy (Fulfilled tt) (advance 1500 first)) in
  ((1500 < 2000)%N /\ (2000 <= 1500 + 500)%N) /\
  copyButton_textContent (dom second) = "Copied!" /\
  copyButton_textContent (dom (advance 500 second)) = "Copy Report to Clipboard".
Proof.
  intros first second.
  assert (Hearly : (1500 < 2000)%N) by lia.
  assert (Hlate : (2000 <= 1500 + 500)%N) by lia.
  split; [split; assumption |].
  exact (second_click_cut_short example_page 1500 500 Hearly Hlate).
Defined.

Lemma copy_after_failure_witness :
  let shown :=
    on_dom (set_resultArea_display "block")
      (on_dom (set_reportOutput_textContent "Normal study.") example_page) in
  let net := Rejected {| name := "TypeError"; message := "Failed to fetch" |} in
  let submitted := final (handleSubmit net shown) in
  reportOutput_textContent (dom shown) = "Normal study." /\
  errorArea_display (dom submitted) = "block" /\
  clipboard (host (final (handleCopy (Fulfilled tt) submitted))) = EmptyString.
Proof.
  intros shown net submitted.
  split; [reflexivity |]. split; [reflexivity |].
  exact (copy_after_failure net shown eq_refl).
Defined.

Lemma copy_after_report_witness :
  let data := JObj [("report", JStr "Normal study.")] in
  let resp := {| status := 200; body := Fulfilled data |} in
  let submitted := final (handleSubmit (Fulfilled resp) example_page) in
  ((200 <= status resp <= 299)%N /\
   own_property data "report" = Some (JStr "Normal study.") /\
   "Normal study." <> EmptyString) /\
  clipboard (host (final (handleCopy (Fulfilled tt) submitted))) = "Normal study.".
Proof.
  intros data resp submitted.
  assert (Hst : (200 <= status resp <= 299)%N) by (cbn; lia).
  assert (Hne : "Normal study." <> EmptyString) by discriminate.
  destruct (copy_after_report resp data "Normal study." example_page
              Hst eq_refl eq_refl Hne) as (Hclip & _).
  facts.
Defined.

End FurtherExamples.
